(** * openleadr: the VTN server (openleadr/server.py)

    A shallow embedding of [OpenADRServer]: its class-level catalogue [_MAP],
    its constructor [__init__] and [add_handler], together with the part of
    Python's object model they rely on (class attributes shared by every
    instance, attribute lookup along the method resolution order, the
    [staticmethod] descriptor, and attribute assignment on an instance). *)

From Stdlib Require Import String Ascii List.
From stdpp Require Import gmap strings list fin_maps.
Import ListNotations.
Open Scope string_scope.

(** ** Python values that occur in the server *)

(** Operator-supplied callables (handlers, the fingerprint lookup) are opaque
    to the server: it stores them and passes them on.  They are compared by
    identity. *)
Definition Callable := nat.

(** The six classes imported from [openleadr.service]. *)
Inductive ServiceClass :=
| EventService
| PollService
| RegistrationService
| ReportService
| OptService
| VTNService.

#[global] Instance ServiceClass_eq_dec : EqDecision ServiceClass.
Proof. solve_decision. Defined.

Definition ServiceClass_code (c : ServiceClass) : nat :=
  match c with
  | EventService => 0 | PollService => 1 | RegistrationService => 2
  | ReportService => 3 | OptService => 4 | VTNService => 5
  end.

Definition ServiceClass_decode (n : nat) : ServiceClass :=
  match n with
  | 0 => EventService | 1 => PollService | 2 => RegistrationService
  | 3 => ReportService | 4 => OptService | _ => VTNService
  end.

#[global] Instance ServiceClass_countable : Countable ServiceClass.
Proof.
  apply (inj_countable' ServiceClass_code ServiceClass_decode).
  intros []; reflexivity.
Defined.

(** The [cert] and [key] values as they travel through [__init__]: [None],
    the path given by the caller, or the bytes read from that path. *)
Inductive Credential :=
| CNone
| CPath (p : string)
| CBytes (b : list Byte.byte).

Definition of_path (o : option string) : Credential :=
  match o with
  | None => CNone
  | Some p => CPath p
  end.

(** What a class attribute of a service class can hold. *)
Inductive ClassAttr :=
| Builtin (owner : ServiceClass) (name : string)
    (* a method written in the class body of the service module *)
| Staticmethod (func : Callable)
    (* staticmethod(func) *)
| PartialCreate (cert key : Credential) (passphrase : option string)
    (* partial(create_message, cert=.., key=.., passphrase=..) *)
| PartialParse (fingerprint_lookup : option Callable).
    (* partial(parse_message, fingerprint_lookup=..) *)

(** A service instance, [EventService(vtn_id)] and the like. *)
Record Service := { svc_class : ServiceClass; svc_vtn_id : string }.

(** What [getattr(service, name)] evaluates to. *)
Inductive Resolved :=
| RMethod (self : Service) (owner : ServiceClass) (name : string)
| RFunc (func : Callable)
| RCreate (cert key : Credential) (passphrase : option string)
| RParse (fingerprint_lookup : option Callable).

(** ** The process state *)

(** [classes] is the attribute dictionary of the service classes, one per
    process and shared by every instance; [fs] holds the paths that [open]
    and [read] succeed on, with the bytes read; [opened] the paths opened so
    far; [stdout] one entry per [print] call. *)
Inductive Printed :=
| PStr (s : string)
| PCallable (func : Callable).

Record World := {
  classes : gmap (ServiceClass * string) ClassAttr;
  fs : gmap string (list Byte.byte);
  opened : list string;
  stdout : list (list Printed)
}.

Inductive Exception :=
| NameError (msg : string)
| TypeError
| AttributeError
| ValueError
| OpenError (path : string).
    (* whatever [open(path, "rb")] or the read raises for a path that cannot
       be read: FileNotFoundError, IsADirectoryError, PermissionError,
       ValueError for a NUL in the path, another OSError *)

Inductive Result (A : Type) :=
| Ok (a : A)
| Raise (e : Exception).
Arguments Ok {A} a.
Arguments Raise {A} e.

(** State and exceptions: a raised exception keeps the state reached. *)
Definition M (A : Type) : Type := World -> Result A * World.

Definition ret {A} (a : A) : M A := fun w => (Ok a, w).
Definition raise {A} (e : Exception) : M A := fun w => (Raise e, w).
Definition bind {A B} (m : M A) (k : A -> M B) : M B :=
  fun w => match m w with
           | (Ok a, w') => k a w'
           | (Raise e, w') => (Raise e, w')
           end.

Notation "'let*' x ':=' m 'in' k" := (bind m (fun x => k))
  (at level 10, x name, m at level 100, k at level 200).

(** A call of a function that touches no state of the process. *)
Definition call {A} (r : Result A) : M A := fun w => (r, w).

(** [print(a, b, ...)] *)
Definition print (items : list Printed) : M unit :=
  fun w => (Ok tt, {| classes := classes w; fs := fs w; opened := opened w;
                      stdout := stdout w ++ [items] |}).

(** [with open(path, "rb") as file: file.read()].  For a path outside [fs]
    the call raises; which exception that is depends on the path and the
    file system and is left open. *)
Definition read_file (path : string) : M (list Byte.byte) :=
  fun w =>
    let w' := {| classes := classes w; fs := fs w;
                 opened := opened w ++ [path]; stdout := stdout w |} in
    match fs w !! path with
    | Some b => (Ok b, w')
    | None => (Raise (OpenError path), w)
    end.

(** [setattr(cls, name, value)] on a class. *)
Definition setattr_class (cls : ServiceClass) (name : string) (v : ClassAttr) : M unit :=
  fun w => (Ok tt, {| classes := <[(cls, name) := v]> (classes w); fs := fs w;
                      opened := opened w; stdout := stdout w |}).

(** ** Attribute lookup on services *)

(** Modelled from the spec: the class hierarchy of [openleadr.service]
    (service.py is not among the sources).  The five service areas share
    the common base [VTNService]. *)
Definition mro (cls : ServiceClass) : list ServiceClass :=
  match cls with
  | VTNService => [VTNService]
  | _ => [cls; VTNService]
  end.

Fixpoint lookup_along (cs : list ServiceClass) (name : string)
    (d : gmap (ServiceClass * string) ClassAttr) : option ClassAttr :=
  match cs with
  | [] => None
  | c :: cs' =>
      match d !! (c, name) with
      | Some v => Some v
      | None => lookup_along cs' name d
      end
  end.

(** The descriptor protocol: a function found on the class is bound to the
    instance, a [staticmethod] hands out the function it wraps, a [partial]
    object is returned as it is. *)
Definition descr_get (self : Service) (v : ClassAttr) : Resolved :=
  match v with
  | Builtin owner name => RMethod self owner name
  | Staticmethod func => RFunc func
  | PartialCreate c k p => RCreate c k p
  | PartialParse fl => RParse fl
  end.

(** Modelled from the spec: a service instance carries no attributes of its
    own ("a pure adapter", section 4.3), so [getattr(service, name)] is
    decided by the classes. *)
Definition resolve (w : World) (self : Service) (name : string) : option Resolved :=
  descr_get self <$> lookup_along (mro (svc_class self)) name (classes w).

(** Modelled from the spec: dispatch in the service areas (service.py is not
    among the sources).  Section 4.3, steps 3 and 4: the extension point is
    resolved when the request is handled and the binding found is invoked
    with the decoded payload.  Dispatch reads the bindings and leaves them
    as they are. *)
Inductive Invocation := Invoke (target : Resolved) (payload : string).

Definition dispatch (self : Service) (name : string) (payload : string) : M (option Invocation) :=
  fun w => (Ok ((fun r => Invoke r payload) <$> resolve w self name), w).

Fixpoint serve (reqs : list (Service * string)) (name : string) : M (list (option Invocation)) :=
  match reqs with
  | [] => ret []
  | (svc, payload) :: rest =>
      let* i := dispatch svc name payload in
      let* rest' := serve rest name in
      ret (i :: rest')
  end.

(** ** Strings as Python prints them *)

(** [s * n] *)
Fixpoint string_mul (s : string) (n : nat) : string :=
  match n with
  | 0 => ""
  | S n' => s +:+ string_mul s n'
  end.

(** [", ".join(parts)] *)
Fixpoint join (sep : string) (parts : list string) : string :=
  match parts with
  | [] => ""
  | [p] => p
  | p :: rest => p +:+ sep +:+ join sep rest
  end.

(** [repr] of a string without quotes or escapes in it, which is what the
    catalogue names are. *)
Definition repr_str (s : string) : string := "'" +:+ s +:+ "'".

(** [str(d.keys())] *)
Definition repr_dict_keys (ks : list string) : string :=
  "dict_keys([" +:+ join ", " (map repr_str ks) +:+ "])".

(** Truth value of an optional path: [None] and the empty string are false. *)
Definition truthy (o : option string) : bool :=
  match o with
  | None => false
  | Some p => negb (String.eqb p "")
  end.

(** ** class OpenADRServer *)

(** Dictionary lookup in a dict literal, kept in insertion order. *)
Fixpoint dict_get {A} (d : list (string * A)) (k : string) : option A :=
  match d with
  | [] => None
  | (k', v) :: d' => if String.eqb k' k then Some v else dict_get d' k
  end.

Definition dict_keys {A} (d : list (string * A)) : list string := map fst d.
Definition dict_values {A} (d : list (string * A)) : list A := map snd d.

Definition _MAP : list (string * ServiceClass) :=
  [("on_created_event", EventService);
   ("on_request_event", EventService);

   ("on_register_report", ReportService);
   ("on_create_report", ReportService);
   ("on_created_report", ReportService);
   ("on_request_report", ReportService);
   ("on_update_report", ReportService);

   ("on_poll", PollService);

   ("on_query_registration", RegistrationService);
   ("on_create_party_registration", RegistrationService);
   ("on_cancel_party_registration", RegistrationService)].

(** A route of the aiohttp application: [web.post(path, s.handler)]. *)
Record Route := { route_method : string; route_path : string; route_handler : Service }.

Definition web_post (path : string) (s : Service) : Route :=
  {| route_method := "POST"; route_path := path; route_handler := s |}.

(** An attribute set by [__init__] holds what [__init__] stored in it until
    an assignment [server.name = func] puts a callable there. *)
Inductive Slot (A : Type) :=
| Own (a : A)
| Rebound (func : Callable).
Arguments Own {A} a.
Arguments Rebound {A} func.

(** The bound method [self.add_handler]. *)
Inductive BoundMethod := Bound_add_handler.

(** The instance: the three attributes [__init__] sets, and [attrs] for
    every other name assigned on the instance afterwards. *)
Record OpenADRServer := {
  app : Slot (list Route);
  services : Slot (list (string * Service));
  __setattr__ : Slot BoundMethod;
  attrs : gmap string Callable
}.

(** Storing [func] in the instance under [name]. *)
Definition store_attr (self : OpenADRServer) (name : string) (func : Callable) : OpenADRServer :=
  if String.eqb name "app" then
    {| app := Rebound func; services := services self;
       __setattr__ := __setattr__ self; attrs := attrs self |}
  else if String.eqb name "services" then
    {| app := app self; services := Rebound func;
       __setattr__ := __setattr__ self; attrs := attrs self |}
  else if String.eqb name "__setattr__" then
    {| app := app self; services := services self;
       __setattr__ := Rebound func; attrs := attrs self |}
  else
    {| app := app self; services := services self;
       __setattr__ := __setattr__ self; attrs := <[name := func]> (attrs self) |}.

(** [object.__setattr__(self, name, func)] for a function [func].  Three
    names are data descriptors of the type and refuse it: [__class__] takes
    only a class and [__dict__] only a dict ([TypeError]), [__weakref__] is
    not writable ([AttributeError]).  Every other name is stored in the
    instance. *)
Definition object_setattr (self : OpenADRServer) (name : string) (func : Callable) : Result OpenADRServer :=
  if String.eqb name "__class__" then Raise TypeError
  else if String.eqb name "__dict__" then Raise TypeError
  else if String.eqb name "__weakref__" then Raise AttributeError
  else Ok (store_attr self name func).





(** What the expression [server.add_handler] evaluates to: a callable stored
    in the instance under that name hides the method of the class. *)
Inductive AddHandlerAttr :=
| Method_add_handler
| Hidden_by (func : Callable).

Definition getattr_add_handler (self : OpenADRServer) : AddHandlerAttr :=
  match attrs self !! "add_handler" with
  | Some func => Hidden_by func
  | None => Method_add_handler
  end.

Definition add_handler (self : OpenADRServer) (name : string) (func : Callable) : M unit :=
  let* _ := print [PStr "Called add_handler"; PStr name; PCallable func] in
  match attrs self !! "_MAP" with
  | Some _ =>
      (* self._MAP is a function stored on the instance: [name in] it raises *)
      raise TypeError
  | None =>
      match dict_get _MAP name with
      | Some cls => setattr_class cls name (Staticmethod func)
      | None =>
          raise (NameError ("Unknown handler " +:+ name
                            +:+ ". Correct handler names are: "
                            +:+ repr_dict_keys (dict_keys _MAP)))
      end
  end.

Section Constructor.

(** [s.__service_name__], a class attribute set in openleadr/service.py,
    and [certificate_fingerprint] of openleadr/utils.py: neither file is
    among the sources, and [__init__] only passes their results on.  The
    fingerprint function may raise on bytes that are no certificate. *)
Variable service_name : ServiceClass -> string.
Variable certificate_fingerprint : list Byte.byte -> Result string.

Definition new_services (vtn_id : string) : list (string * Service) :=
  [("event_service", {| svc_class := EventService; svc_vtn_id := vtn_id |});
   ("report_service", {| svc_class := ReportService; svc_vtn_id := vtn_id |});
   ("poll_service", {| svc_class := PollService; svc_vtn_id := vtn_id |});
   ("opt_service", {| svc_class := OptService; svc_vtn_id := vtn_id |});
   ("registration_service", {| svc_class := RegistrationService; svc_vtn_id := vtn_id |})].

Definition new_routes (svcs : list (string * Service)) : list Route :=
  map (fun s => web_post ("/OpenADR2/Simple/2.0b/" +:+ service_name (svc_class s)) s)
      (dict_values svcs).

(** Lines 59-68: the values of [cert] and [key] after the [if]. *)
Definition configure_signing (cert key : option string) : M (Credential * Credential) :=
  match cert, key with
  | Some c, Some k =>
      if truthy cert && truthy key then
        let* cert' := read_file c in
        let* key' := read_file k in
        let* _ := print [PStr (string_mul "*" 80)] in
        let* fingerprint := call (certificate_fingerprint cert') in
        let* _ := print [PStr "Your VTN Certificate Fingerprint is"; PStr fingerprint] in
        let* _ := print [PStr "Please deliver this fingerprint to the VTN you are connecting to."] in
        let* _ := print [PStr "You do not need to keep this a secret."] in
        let* _ := print [PStr (string_mul "*" 80)] in
        ret (CBytes cert', CBytes key')
      else ret (of_path cert, of_path key)
  | _, _ => ret (of_path cert, of_path key)
  end.

Definition __init__ (vtn_id : string) (cert key passphrase : option string)
    (fingerprint_lookup : option Callable) : M OpenADRServer :=
  let svcs := new_services vtn_id in
  let routes := new_routes svcs in
  let* ck := configure_signing cert key in
  let* _ := setattr_class VTNService "_create_message"
              (PartialCreate (fst ck) (snd ck) passphrase) in
  let* _ := setattr_class VTNService "_parse_message"
              (PartialParse fingerprint_lookup) in
  ret {| app := Own routes; services := Own svcs;
         __setattr__ := Own Bound_add_handler; attrs := ∅ |}.

End Constructor.

(** ** Sample process states, used to run the model *)

Definition empty_world : World :=
  {| classes := ∅; fs := ∅; opened := []; stdout := [] |}.

(** A process in which every catalogue name is still bound to the method the
    service module wrote on the owning class. *)
Definition builtin_classes : gmap (ServiceClass * string) ClassAttr :=
  list_to_map (map (fun e => ((snd e, fst e), Builtin (snd e) (fst e))) _MAP).

Definition fresh_world : World :=
  {| classes := builtin_classes; fs := ∅; opened := []; stdout := [] |}.

(** The same process with a certificate and a key on disk. *)
Definition signing_world : World :=
  {| classes := builtin_classes;
     fs := <["cert.pem" := [Byte.x2d; Byte.x2d]]> (<["key.pem" := [Byte.x4b]]> ∅);
     opened := []; stdout := [] |}.

(** A process with a certificate on disk and no key, and one whose
    certificate file holds bytes that are no certificate. *)
Definition cert_only_world : World :=
  {| classes := builtin_classes;
     fs := <["cert.pem" := [Byte.x2d; Byte.x2d]]> ∅;
     opened := []; stdout := [] |}.

Definition bad_cert_world : World :=
  {| classes := builtin_classes;
     fs := <["cert.pem" := [Byte.x4b]]> (<["key.pem" := [Byte.x4b]]> ∅);
     opened := []; stdout := [] |}.

Definition sample_names (c : ServiceClass) : string :=
  match c with
  | EventService => "EiEvent"
  | ReportService => "EiReport"
  | PollService => "OadrPoll"
  | OptService => "EiOpt"
  | RegistrationService => "EiRegisterParty"
  | VTNService => ""
  end.

(** A stand-in that accepts bytes starting with a dash, as a PEM file does. *)
Definition sample_fingerprint (b : list Byte.byte) : Result string :=
  match b with
  | Byte.x2d :: _ => Ok (string_mul "AB:" (length b))
  | _ => Raise ValueError
  end.

Definition bare_server : OpenADRServer :=
  {| app := Own []; services := Own [];
     __setattr__ := Own Bound_add_handler; attrs := ∅ |}.

(** ** Statements shared by the theorems *)

(** [s] occurs in [msg]. *)
Definition mentions (msg s : string) : Prop :=
  exists pre post, msg = pre +:+ s +:+ post.

(** No service area overrides the codec attributes of the base class. *)
Definition codec_on_base_only (w : World) : Prop :=
  forall cls, cls <> VTNService ->
    classes w !! (cls, "_create_message") = None /\
    classes w !! (cls, "_parse_message") = None.

(** ** Strings *)

Lemma append_cons (x : ascii) (a b : string) :
  String x a +:+ b = String x (a +:+ b).
Proof. reflexivity. Qed.

Lemma append_assoc (a b c : string) : (a +:+ b) +:+ c = a +:+ (b +:+ c).
Proof.
  induction a as [|x a IH]; [reflexivity|].
  now rewrite !append_cons, IH.
Qed.

Lemma append_nil_r (a : string) : a +:+ "" = a.
Proof.
  induction a as [|x a IH]; [reflexivity|].
  now rewrite append_cons, IH.
Qed.

Lemma mentions_middle (a s b : string) : mentions (a +:+ s +:+ b) s.
Proof. now exists a, b. Qed.

Lemma mentions_append_l (a msg s : string) : mentions msg s -> mentions (a +:+ msg) s.
Proof.
  intros (pre & post & ->). exists (a +:+ pre), post.
  now rewrite append_assoc.
Qed.

Lemma mentions_append_r (msg b s : string) : mentions msg s -> mentions (msg +:+ b) s.
Proof.
  intros (pre & post & ->). exists pre, (post +:+ b).
  now rewrite !append_assoc.
Qed.

Lemma mentions_self (s : string) : mentions s s.
Proof. exists "", "". change ("" +:+ s +:+ "") with (s +:+ ""). now rewrite append_nil_r. Qed.

Lemma join_mentions (sep : string) (parts : list string) (p : string) :
  In p parts -> mentions (join sep parts) p.
Proof.
  induction parts as [|q rest IH]; [intros []|].
  intros [-> | Hin].
  - destruct rest as [|r rest]; simpl.
    + apply mentions_self.
    + apply (mentions_middle "" p).
  - destruct rest as [|r rest]; [destruct Hin|].
    change (join sep (q :: r :: rest)) with (q +:+ sep +:+ join sep (r :: rest)).
    apply mentions_append_l, mentions_append_l, IH, Hin.
Qed.

Lemma repr_dict_keys_mentions (ks : list string) (k : string) :
  In k ks -> mentions (repr_dict_keys ks) (repr_str k).
Proof.
  intros Hin. unfold repr_dict_keys.
  apply mentions_append_l, mentions_append_r, join_mentions.
  now apply in_map.
Qed.

(** ** Dictionaries *)

Lemma dict_get_None {A} (d : list (string * A)) (k : string) :
  ~ In k (dict_keys d) -> dict_get d k = None.
Proof.
  induction d as [|[k' v] d IH]; simpl; [reflexivity|].
  intros Hn. destruct (String.eqb_spec k' k) as [->|Hne].
  - exfalso. apply Hn. now left.
  - apply IH. intros Hin. apply Hn. now right.
Qed.

Lemma dict_get_Some_In {A} (d : list (string * A)) (k : string) (v : A) :
  dict_get d k = Some v -> In (k, v) d.
Proof.
  induction d as [|[k' v'] d IH]; simpl; [discriminate|].
  destruct (String.eqb_spec k' k) as [->|Hne].
  - intros [= ->]. now left.
  - intros H. right. now apply IH.
Qed.

Lemma _MAP_owner_not_base (name : string) (cls : ServiceClass) :
  dict_get _MAP name = Some cls -> cls <> VTNService.
Proof.
  intros H%dict_get_Some_In. simpl in H.
  repeat (destruct H as [[= <- <-] | H]; [discriminate|]).
  destruct H.
Qed.

(** ** Attribute lookup *)

Lemma resolve_own (w : World) (svc : Service) (name : string) (v : ClassAttr) :
  classes w !! (svc_class svc, name) = Some v ->
  resolve w svc name = Some (descr_get svc v).
Proof.
  intros H. unfold resolve.
  destruct (svc_class svc); simpl; now rewrite H.
Qed.

Lemma resolve_base (w : World) (svc : Service) (name : string) :
  classes w !! (svc_class svc, name) = None ->
  resolve w svc name = descr_get svc <$> classes w !! (VTNService, name).
Proof.
  intros H. unfold resolve.
  destruct (svc_class svc); simpl; rewrite H;
    now destruct (classes w !! (VTNService, name)).
Qed.

Lemma serve_resolved (reqs : list (Service * string)) (name : string)
    (w : World) (r : Resolved) :
  (forall req, In req reqs -> resolve w (fst req) name = Some r) ->
  serve reqs name w = (Ok (map (fun req => Some (Invoke r (snd req))) reqs), w).
Proof.
  induction reqs as [|[svc payload] rest IH]; intros Hall; [reflexivity|].
  assert (Hhd : resolve w svc name = Some r) by (apply (Hall (svc, payload)); now left).
  assert (Htl : serve rest name w
                = (Ok (map (fun req => Some (Invoke r (snd req))) rest), w))
    by (apply IH; intros req Hin; apply Hall; now right).
  simpl. unfold bind, dispatch. now rewrite Hhd, Htl.
Qed.

(** ** add_handler *)

Lemma add_handler_known (self : OpenADRServer) (name : string) (cls : ServiceClass)
    (func : Callable) (w : World) :
  attrs self !! "_MAP" = None ->
  dict_get _MAP name = Some cls ->
  add_handler self name func w =
    (Ok tt,
     {| classes := <[(cls, name) := Staticmethod func]> (classes w);
        fs := fs w; opened := opened w;
        stdout := stdout w ++ [[PStr "Called add_handler"; PStr name; PCallable func]] |}).
Proof.
  intros Hself Hname. unfold add_handler, bind, print.
  now rewrite Hself, Hname.
Qed.

Lemma add_handler_resolve (self : OpenADRServer) (name : string) (cls : ServiceClass)
    (func : Callable) (w : World) (svc : Service) :
  attrs self !! "_MAP" = None ->
  dict_get _MAP name = Some cls ->
  svc_class svc = cls ->
  resolve (snd (add_handler self name func w)) svc name = Some (RFunc func).
Proof.
  intros Hself Hname Hcls.
  rewrite (add_handler_known self name cls func w Hself Hname). simpl.
  apply (resolve_own _ svc name (Staticmethod func)).
  simpl. rewrite Hcls. apply lookup_insert_eq.
Qed.

Lemma add_handler_unknown (self : OpenADRServer) (name : string)
    (func : Callable) (w : World) :
  attrs self !! "_MAP" = None ->
  ~ In name (dict_keys _MAP) ->
  add_handler self name func w =
    (Raise (NameError ("Unknown handler " +:+ name
                       +:+ ". Correct handler names are: "
                       +:+ repr_dict_keys (dict_keys _MAP))),
     {| classes := classes w; fs := fs w; opened := opened w;
        stdout := stdout w ++ [[PStr "Called add_handler"; PStr name; PCallable func]] |}).
Proof.
  intros Hself Hname. unfold add_handler, bind, print.
  now rewrite Hself, (dict_get_None _MAP name Hname).
Qed.

(** C1.  For a name outside the catalogue, [add_handler] raises a [NameError]
    whose message contains the offending name and the quoted form of every
    catalogue name; no class attribute is touched (so every service resolves
    every name as before), no file is opened, and the only trace is the line
    [add_handler] prints on entry.  The server object is not written to:
    [add_handler] returns no new instance. *)
Theorem add_handler_unknown_name (self : OpenADRServer) (name : string)
    (func : Callable) (w : World) :
  attrs self !! "_MAP" = None ->
  ~ In name (dict_keys _MAP) ->
  exists msg w',
    add_handler self name func w = (Raise (NameError msg), w') /\
    mentions msg name /\
    (forall k, In k (dict_keys _MAP) -> mentions msg (repr_str k)) /\
    classes w' = classes w /\
    (forall svc n, resolve w' svc n = resolve w svc n) /\
    fs w' = fs w /\ opened w' = opened w /\
    stdout w' = (stdout w ++ [[PStr "Called add_handler"; PStr name; PCallable func]])%list.
Proof.
  intros Hself Hname.
  eexists _, _. split.
  - now apply add_handler_unknown.
  - split; [apply (mentions_middle "Unknown handler " name)|].
    split; [|now repeat split].
    intros k Hk.
    apply mentions_append_l, mentions_append_l, mentions_append_l.
    now apply repr_dict_keys_mentions.
Qed.

Lemma add_handler_unknown_name_witness :
  exists msg w',
    add_handler bare_server "on_foo" 3 fresh_world = (Raise (NameError msg), w') /\
    mentions msg "on_foo" /\
    (forall k, In k (dict_keys _MAP) -> mentions msg (repr_str k)) /\
    classes w' = classes fresh_world /\
    (forall svc n, resolve w' svc n = resolve fresh_world svc n) /\
    fs w' = fs fresh_world /\ opened w' = opened fresh_world /\
    stdout w' = (stdout fresh_world
                 ++ [[PStr "Called add_handler"; PStr "on_foo"; PCallable 3]])%list.
Proof.
  apply (add_handler_unknown_name bare_server "on_foo" 3 fresh_world).
  - reflexivity.
  - simpl. intros H.
    repeat (destruct H as [H | H]; [discriminate H|]). exact H.
Defined.

(** C2.  For a catalogue name owned by class [cls], [add_handler name func]
    succeeds, the attribute [name] of [cls] is [staticmethod(func)], every
    service of that class resolves [name] to [func] itself, and every request
    dispatched afterwards invokes [func] with its payload. *)
Theorem add_handler_binds (self : OpenADRServer) (name : string) (cls : ServiceClass)
    (func : Callable) (w : World) :
  attrs self !! "_MAP" = None ->
  dict_get _MAP name = Some cls ->
  exists w',
    add_handler self name func w = (Ok tt, w') /\
    classes w' !! (cls, name) = Some (Staticmethod func) /\
    (forall svc, svc_class svc = cls -> resolve w' svc name = Some (RFunc func)) /\
    (forall reqs,
        (forall req, In req reqs -> svc_class (fst req) = cls) ->
        serve reqs name w'
        = (Ok (map (fun req => Some (Invoke (RFunc func) (snd req))) reqs), w')).
Proof.
  intros Hself Hname.
  assert (Hres : forall svc, svc_class svc = cls ->
            resolve (snd (add_handler self name func w)) svc name = Some (RFunc func))
    by (intros svc Hsvc; now apply (add_handler_resolve self name cls)).
  rewrite (add_handler_known self name cls func w Hself Hname) in Hres |- *.
  eexists. split; [reflexivity|]. split; [apply lookup_insert_eq|].
  split; [exact Hres|].
  intros reqs Hall. apply serve_resolved.
  intros req Hin. apply Hres, Hall, Hin.
Qed.

Lemma add_handler_binds_witness :
  exists w',
    add_handler bare_server "on_poll" 7 fresh_world = (Ok tt, w') /\
    classes w' !! (PollService, "on_poll") = Some (Staticmethod 7) /\
    (forall svc, svc_class svc = PollService ->
                 resolve w' svc "on_poll" = Some (RFunc 7)) /\
    (forall reqs,
        (forall req, In req reqs -> svc_class (fst req) = PollService) ->
        serve reqs "on_poll" w'
        = (Ok (map (fun req => Some (Invoke (RFunc 7) (snd req))) reqs), w')).
Proof.
  apply (add_handler_binds bare_server "on_poll" PollService 7 fresh_world);
    reflexivity.
Defined.

(** Two bindings of the same extension point, one after the other. *)
Definition poll_service : Service :=
  {| svc_class := PollService; svc_vtn_id := "vtn1" |}.

Definition bound_once : World :=
  snd (add_handler bare_server "on_poll" 1 fresh_world).

Definition bound_twice : World :=
  snd (add_handler bare_server "on_poll" 2 bound_once).

(** C6 fails: after [add_handler("on_poll", 1)] has succeeded, a second
    [add_handler("on_poll", 2)] succeeds as well and changes the binding the
    poll service resolves from the first handler to the second. *)
Lemma add_handler_second_binding_accepted :
  fst (add_handler bare_server "on_poll" 1 fresh_world) = Ok tt /\
  resolve bound_once poll_service "on_poll" = Some (RFunc 1) /\
  fst (add_handler bare_server "on_poll" 2 bound_once) = Ok tt /\
  resolve bound_twice poll_service "on_poll" = Some (RFunc 2).
Proof. vm_compute. repeat split. Qed.

(** C6, amended.  An extension point can be bound any number of times: for a
    catalogue name, [add_handler name f] followed by [add_handler name g]
    both succeed, and afterwards the owning class holds [staticmethod(g)] and
    its services resolve [name] to [g]. *)
Theorem add_handler_rebinds (self : OpenADRServer) (name : string) (cls : ServiceClass)
    (f g : Callable) (w : World) :
  attrs self !! "_MAP" = None ->
  dict_get _MAP name = Some cls ->
  exists w1 w2,
    add_handler self name f w = (Ok tt, w1) /\
    add_handler self name g w1 = (Ok tt, w2) /\
    classes w2 !! (cls, name) = Some (Staticmethod g) /\
    (forall svc, svc_class svc = cls -> resolve w2 svc name = Some (RFunc g)).
Proof.
  intros Hself Hname.
  pose proof (add_handler_known self name cls f w Hself Hname) as H1.
  set (w1 := snd (add_handler self name f w)).
  pose proof (add_handler_known self name cls g w1 Hself Hname) as H2.
  exists w1, (snd (add_handler self name g w1)).
  split; [unfold w1; now rewrite H1|].
  split; [now rewrite H2|].
  split; [rewrite H2; apply lookup_insert_eq|].
  intros svc Hsvc. now apply (add_handler_resolve self name cls).
Qed.

Lemma add_handler_rebinds_witness :
  exists w1 w2,
    add_handler bare_server "on_poll" 1 fresh_world = (Ok tt, w1) /\
    add_handler bare_server "on_poll" 2 w1 = (Ok tt, w2) /\
    classes w2 !! (PollService, "on_poll") = Some (Staticmethod 2) /\
    (forall svc, svc_class svc = PollService ->
                 resolve w2 svc "on_poll" = Some (RFunc 2)).
Proof.
  apply (add_handler_rebinds bare_server "on_poll" PollService 1 2 fresh_world);
    reflexivity.
Defined.

(** ** The constructor *)


(** The process state [__init__] leaves behind: the two codec attributes of
    [VTNService] are replaced, [paths] were opened and [lines] printed. *)
Definition after_init (w : World) (cert key : Credential) (passphrase : option string)
    (fingerprint_lookup : option Callable) (paths : list string)
    (lines : list (list Printed)) : World :=
  {| classes :=
       <[(VTNService, "_parse_message") := PartialParse fingerprint_lookup]>
         (<[(VTNService, "_create_message") := PartialCreate cert key passphrase]>
            (classes w));
     fs := fs w;
     opened := opened w ++ paths;
     stdout := stdout w ++ lines |}.

Lemma truthy_Some (p : string) : p <> "" -> truthy (Some p) = true.
Proof.
  intros Hp. unfold truthy. now destruct (String.eqb_spec p "").
Qed.




Lemma world_eta (w : World) :
  {| classes := classes w; fs := fs w; opened := opened w; stdout := stdout w |} = w.
Proof. now destruct w. Qed.

Section Constructor_facts.

Variable service_name : ServiceClass -> string.
Variable certificate_fingerprint : list Byte.byte -> Result string.

Local Abbreviation init := (__init__ service_name certificate_fingerprint).
Local Abbreviation signing := (configure_signing certificate_fingerprint).

(** The instance [__init__] returns. *)
Definition constructed (vtn_id : string) : OpenADRServer :=
  {| app := Own (new_routes service_name (new_services vtn_id));
     services := Own (new_services vtn_id);
     __setattr__ := Own Bound_add_handler; attrs := ∅ |}.

Lemma configure_signing_plain (cert key : option string) (w : World) :
  truthy cert && truthy key = false ->
  signing cert key w = (Ok (of_path cert, of_path key), w).
Proof.
  intros H. unfold configure_signing.
  destruct cert as [c|], key as [k|]; try reflexivity.
  now rewrite H.
Qed.


Lemma configure_signing_Ok (cert key : option string) (w w' : World)
    (ck : Credential * Credential) :
  signing cert key w = (Ok ck, w') ->
  classes w' = classes w /\ fs w' = fs w.
Proof.
  unfold configure_signing, bind, read_file, print, call, ret.
  destruct cert as [c|], key as [k|];
    try (intros H; inversion H; subst; now split).
  destruct (truthy (Some c) && truthy (Some k));
    [|intros H; inversion H; subst; now split].
  simpl.
  destruct (fs w !! c) as [cb|]; [simpl|discriminate].
  destruct (fs w !! k) as [kb|]; [simpl|discriminate].
  destruct (certificate_fingerprint cb); [simpl|discriminate].
  intros H; inversion H; subst; now split.
Qed.

Lemma init_unfold (vtn_id : string) (cert key passphrase : option string)
    (fingerprint_lookup : option Callable) (w w1 : World)
    (c k : Credential) :
  signing cert key w = (Ok (c, k), w1) ->
  init vtn_id cert key passphrase fingerprint_lookup w
  = (Ok (constructed vtn_id),
     {| classes :=
          <[(VTNService, "_parse_message") := PartialParse fingerprint_lookup]>
            (<[(VTNService, "_create_message") := PartialCreate c k passphrase]>
               (classes w1));
        fs := fs w1; opened := opened w1; stdout := stdout w1 |}).
Proof.
  intros H. unfold __init__, bind. rewrite H. reflexivity.
Qed.

Lemma init_raise (vtn_id : string) (cert key passphrase : option string)
    (fingerprint_lookup : option Callable) (w w1 : World) (e : Exception) :
  signing cert key w = (Raise e, w1) ->
  init vtn_id cert key passphrase fingerprint_lookup w = (Raise e, w1).
Proof.
  intros H. unfold __init__, bind. now rewrite H.
Qed.

Lemma init_plain (vtn_id : string) (cert key passphrase : option string)
    (fingerprint_lookup : option Callable) (w : World) :
  truthy cert && truthy key = false ->
  init vtn_id cert key passphrase fingerprint_lookup w
  = (Ok (constructed vtn_id),
     after_init w (of_path cert) (of_path key) passphrase fingerprint_lookup [] []).
Proof.
  intros H.
  rewrite (init_unfold vtn_id cert key passphrase fingerprint_lookup w w
             (of_path cert) (of_path key))
    by now apply configure_signing_plain.
  unfold after_init. now rewrite !app_nil_r.
Qed.






(** Whatever the arguments, a constructor call that returns has built the
    same instance and has replaced the two codec attributes of the base. *)
Lemma init_Ok (vtn_id : string) (cert key passphrase : option string)
    (fingerprint_lookup : option Callable) (w w' : World) (srv : OpenADRServer) :
  init vtn_id cert key passphrase fingerprint_lookup w = (Ok srv, w') ->
  srv = constructed vtn_id /\
  fs w' = fs w /\
  exists c k w1,
    signing cert key w = (Ok (c, k), w1) /\
    classes w' =
      <[(VTNService, "_parse_message") := PartialParse fingerprint_lookup]>
        (<[(VTNService, "_create_message") := PartialCreate c k passphrase]>
           (classes w)).
Proof.
  intros H.
  destruct (signing cert key w) as [[[c k]|e] w1] eqn:Hs.
  - rewrite (init_unfold _ _ _ _ _ _ _ _ _ Hs) in H.
    destruct (configure_signing_Ok _ _ _ _ _ Hs) as [Hc Hf].
    injection H as <- <-. simpl. rewrite Hc.
    split; [reflexivity|]. split; [exact Hf|].
    now exists c, k, w1.
  - rewrite (init_raise _ _ _ _ _ _ _ _ Hs) in H. discriminate.
Qed.

End Constructor_facts.

(** ** The codec attributes on the base class *)

Lemma codec_lookup_create (d : gmap (ServiceClass * string) ClassAttr)
    (create parse : ClassAttr) :
  <[(VTNService, "_parse_message") := parse]>
    (<[(VTNService, "_create_message") := create]> d)
    !! (VTNService, "_create_message") = Some create.
Proof.
  rewrite lookup_insert_ne by discriminate. apply lookup_insert_eq.
Qed.

Lemma codec_lookup_parse (d : gmap (ServiceClass * string) ClassAttr)
    (create parse : ClassAttr) :
  <[(VTNService, "_parse_message") := parse]>
    (<[(VTNService, "_create_message") := create]> d)
    !! (VTNService, "_parse_message") = Some parse.
Proof. apply lookup_insert_eq. Qed.

Lemma codec_lookup_other (d : gmap (ServiceClass * string) ClassAttr)
    (create parse : ClassAttr) (cls : ServiceClass) (name : string) :
  cls <> VTNService ->
  <[(VTNService, "_parse_message") := parse]>
    (<[(VTNService, "_create_message") := create]> d) !! (cls, name)
  = d !! (cls, name).
Proof.
  intros Hcls. rewrite !lookup_insert_ne by congruence. reflexivity.
Qed.


Lemma resolve_codec (w w' : World) (c k : Credential) (passphrase : option string)
    (fingerprint_lookup : option Callable) (svc : Service) :
  codec_on_base_only w ->
  classes w' =
    <[(VTNService, "_parse_message") := PartialParse fingerprint_lookup]>
      (<[(VTNService, "_create_message") := PartialCreate c k passphrase]>
         (classes w)) ->
  resolve w' svc "_create_message" = Some (RCreate c k passphrase) /\
  resolve w' svc "_parse_message" = Some (RParse fingerprint_lookup).
Proof.
  intros Hw Hc.
  destruct (decide (svc_class svc = VTNService)) as [Heq|Hne].
  - split.
    + apply (resolve_own w' svc _ (PartialCreate c k passphrase)).
      rewrite Heq, Hc. apply codec_lookup_create.
    + apply (resolve_own w' svc _ (PartialParse fingerprint_lookup)).
      rewrite Heq, Hc. apply codec_lookup_parse.
  - destruct (Hw _ Hne) as [Hcm Hpm]. split.
    + rewrite resolve_base
        by (rewrite Hc, codec_lookup_other by exact Hne; exact Hcm).
      now rewrite Hc, codec_lookup_create.
    + rewrite resolve_base
        by (rewrite Hc, codec_lookup_other by exact Hne; exact Hpm).
      now rewrite Hc, codec_lookup_parse.
Qed.

Lemma builtin_codec_on_base_only : codec_on_base_only fresh_world.
Proof. intros cls H. destruct cls; now split. Qed.

(** ** Instance attributes *)


Lemma owner_has_service (name : string) (cls : ServiceClass) (vtn_id : string) :
  dict_get _MAP name = Some cls ->
  exists key svc, In (key, svc) (new_services vtn_id) /\ svc_class svc = cls.
Proof.
  intros H%dict_get_Some_In. simpl in H.
  assert (Hc : cls = EventService \/ cls = ReportService \/
               cls = PollService \/ cls = RegistrationService)
    by (repeat (destruct H as [[= <- <-] | H]; [tauto|]); destruct H).
  destruct Hc as [-> | [-> | [-> | ->]]].
  - exists "event_service", {| svc_class := EventService; svc_vtn_id := vtn_id |}.
    split; [simpl; tauto | reflexivity].
  - exists "report_service", {| svc_class := ReportService; svc_vtn_id := vtn_id |}.
    split; [simpl; tauto | reflexivity].
  - exists "poll_service", {| svc_class := PollService; svc_vtn_id := vtn_id |}.
    split; [simpl; tauto | reflexivity].
  - exists "registration_service",
      {| svc_class := RegistrationService; svc_vtn_id := vtn_id |}.
    split; [simpl; tauto | reflexivity].
Qed.

Section Constructor_claims.

Variable service_name : ServiceClass -> string.
Variable certificate_fingerprint : list Byte.byte -> Result string.

Local Abbreviation init := (__init__ service_name certificate_fingerprint).
Local Abbreviation signing := (configure_signing certificate_fingerprint).
Local Abbreviation built := (constructed service_name).

(** C3, amended.  When exactly one of [cert] and [key] is given and the
    other is [None], construction succeeds: no file is opened, nothing is
    printed, and the signer is installed with the given path as it was passed
    and [None] for the other. *)
Theorem init_one_credential (vtn_id : string) (cert key passphrase : option string)
    (fingerprint_lookup : option Callable) (w : World) :
  (cert = None /\ key <> None) \/ (cert <> None /\ key = None) ->
  exists w',
    init vtn_id cert key passphrase fingerprint_lookup w = (Ok (built vtn_id), w') /\
    opened w' = opened w /\ stdout w' = stdout w /\ fs w' = fs w /\
    classes w' !! (VTNService, "_create_message")
      = Some (PartialCreate (of_path cert) (of_path key) passphrase) /\
    classes w' !! (VTNService, "_parse_message")
      = Some (PartialParse fingerprint_lookup).
Proof.
  intros Hone.
  assert (Hf : truthy cert && truthy key = false).
  { destruct Hone as [[-> _] | [_ ->]]; [reflexivity | apply andb_false_r]. }
  rewrite (init_plain service_name certificate_fingerprint _ _ _ _ _ _ Hf).
  eexists. split; [reflexivity|]. simpl. rewrite !app_nil_r.
  repeat split.
  - apply codec_lookup_create.
  - apply codec_lookup_parse.
Qed.


(** C7.  When no service area overrides the codec attributes, then after
    construction every service, whatever its class, resolves
    [_create_message] to one and the same signer and [_parse_message] to one
    and the same verifier: the two attributes set on [VTNService]. *)
Theorem init_shared_codec (vtn_id : string) (cert key passphrase : option string)
    (fingerprint_lookup : option Callable) (w w' : World) (srv : OpenADRServer) :
  codec_on_base_only w ->
  init vtn_id cert key passphrase fingerprint_lookup w = (Ok srv, w') ->
  services srv = Own (new_services vtn_id) /\
  exists c k,
    classes w' !! (VTNService, "_create_message")
      = Some (PartialCreate c k passphrase) /\
    classes w' !! (VTNService, "_parse_message")
      = Some (PartialParse fingerprint_lookup) /\
    forall svc,
      resolve w' svc "_create_message" = Some (RCreate c k passphrase) /\
      resolve w' svc "_parse_message" = Some (RParse fingerprint_lookup).
Proof.
  intros Hw Hinit.
  destruct (init_Ok _ _ _ _ _ _ _ _ _ _ Hinit) as (-> & _ & c & k & w1 & _ & Hc).
  split; [reflexivity|]. exists c, k.
  split; [rewrite Hc; apply codec_lookup_create|].
  split; [rewrite Hc; apply codec_lookup_parse|].
  intros svc. now apply (resolve_codec w w').
Qed.

(** C8.  A constructor call that returns has registered five routes, one per
    service and in the order of [self.services]: each is a POST route at
    [/OpenADR2/Simple/2.0b/] followed by the service name of the class, and
    its handler is the [handler] of that service. *)
Theorem init_routes (vtn_id : string) (cert key passphrase : option string)
    (fingerprint_lookup : option Callable) (w w' : World) (srv : OpenADRServer) :
  init vtn_id cert key passphrase fingerprint_lookup w = (Ok srv, w') ->
  let service cls := {| svc_class := cls; svc_vtn_id := vtn_id |} in
  let route cls :=
    {| route_method := "POST";
       route_path := "/OpenADR2/Simple/2.0b/" +:+ service_name cls;
       route_handler := service cls |} in
  services srv = Own [("event_service", service EventService);
                      ("report_service", service ReportService);
                      ("poll_service", service PollService);
                      ("opt_service", service OptService);
                      ("registration_service", service RegistrationService)] /\
  app srv = Own [route EventService; route ReportService; route PollService;
                 route OptService; route RegistrationService].
Proof.
  intros Hinit.
  destruct (init_Ok _ _ _ _ _ _ _ _ _ _ Hinit) as (-> & _).
  split; reflexivity.
Qed.



(** C4, amended.  Handler bindings are held by the service classes, which
    every server in the process shares: once two servers are constructed,
    [add_handler name func] on the first makes the service of the owning
    class of the second server (there is one) resolve [name] to [func]. *)
Theorem add_handler_shared_by_servers
    (vtn1 : string) (cert1 key1 pass1 : option string) (lookup1 : option Callable)
    (vtn2 : string) (cert2 key2 pass2 : option string) (lookup2 : option Callable)
    (w0 w1 w2 : World) (s1 s2 : OpenADRServer)
    (name : string) (cls : ServiceClass) (func : Callable) :
  init vtn1 cert1 key1 pass1 lookup1 w0 = (Ok s1, w1) ->
  init vtn2 cert2 key2 pass2 lookup2 w1 = (Ok s2, w2) ->
  dict_get _MAP name = Some cls ->
  services s2 = Own (new_services vtn2) /\
  (exists key svc, In (key, svc) (new_services vtn2) /\ svc_class svc = cls) /\
  exists w3,
    add_handler s1 name func w2 = (Ok tt, w3) /\
    forall key svc,
      In (key, svc) (new_services vtn2) -> svc_class svc = cls ->
      resolve w3 svc name = Some (RFunc func).
Proof.
  intros H1 H2 Hname.
  destruct (init_Ok _ _ _ _ _ _ _ _ _ _ H1) as (-> & _).
  destruct (init_Ok _ _ _ _ _ _ _ _ _ _ H2) as (-> & _).
  split; [reflexivity|].
  split; [now apply (owner_has_service name)|].
  exists (snd (add_handler (built vtn1) name func w2)).
  split; [now rewrite (add_handler_known (built vtn1) name cls func w2 eq_refl Hname)|].
  intros key svc _ Hcls. now apply (add_handler_resolve _ name cls).
Qed.

End Constructor_claims.

(** ** The theorems at work on sample processes *)

Definition sample_init := __init__ sample_names sample_fingerprint.
Definition sample_server := constructed sample_names.

(** One server constructed without credentials, then a second one. *)
Definition one_server : World :=
  snd (sample_init "vtn1" None None None None fresh_world).

Definition two_servers : World :=
  snd (sample_init "vtn2" None None None (Some 9) one_server).

Definition second_poll_service : Service :=
  {| svc_class := PollService; svc_vtn_id := "vtn2" |}.

Lemma one_server_built :
  sample_init "vtn1" None None None None fresh_world
  = (Ok (sample_server "vtn1"), one_server).
Proof. vm_compute. reflexivity. Qed.

Lemma two_servers_built :
  sample_init "vtn2" None None None (Some 9) one_server
  = (Ok (sample_server "vtn2"), two_servers).
Proof. vm_compute. reflexivity. Qed.

(** C3 fails: with a certificate and no key, and with a key and no
    certificate, the constructor returns a server. *)
Lemma init_accepts_one_credential :
  fst (sample_init "vtn1" (Some "cert.pem") None None None signing_world)
  = Ok (sample_server "vtn1") /\
  fst (sample_init "vtn1" None (Some "key.pem") None None signing_world)
  = Ok (sample_server "vtn1").
Proof. vm_compute. split; reflexivity. Qed.

Lemma init_one_credential_witness :
  exists w',
    sample_init "vtn1" (Some "cert.pem") None (Some "secret") None signing_world
    = (Ok (sample_server "vtn1"), w') /\
    opened w' = opened signing_world /\ stdout w' = stdout signing_world /\
    fs w' = fs signing_world /\
    classes w' !! (VTNService, "_create_message")
      = Some (PartialCreate (of_path (Some "cert.pem")) (of_path None) (Some "secret")) /\
    classes w' !! (VTNService, "_parse_message") = Some (PartialParse None).
Proof.
  apply (init_one_credential sample_names sample_fingerprint
           "vtn1" (Some "cert.pem") None (Some "secret") None signing_world).
  right. split; [discriminate | reflexivity].
Defined.



Lemma init_shared_codec_witness :
  services (sample_server "vtn1") = Own (new_services "vtn1") /\
  exists c k,
    classes one_server !! (VTNService, "_create_message")
      = Some (PartialCreate c k None) /\
    classes one_server !! (VTNService, "_parse_message")
      = Some (PartialParse None) /\
    forall svc,
      resolve one_server svc "_create_message" = Some (RCreate c k None) /\
      resolve one_server svc "_parse_message" = Some (RParse None).
Proof.
  apply (init_shared_codec sample_names sample_fingerprint
           "vtn1" None None None None fresh_world one_server (sample_server "vtn1")).
  - intros cls H. destruct cls; now split.
  - vm_compute. reflexivity.
Defined.

Lemma init_routes_witness :
  services (sample_server "vtn1")
  = Own [("event_service", {| svc_class := EventService; svc_vtn_id := "vtn1" |});
         ("report_service", {| svc_class := ReportService; svc_vtn_id := "vtn1" |});
         ("poll_service", {| svc_class := PollService; svc_vtn_id := "vtn1" |});
         ("opt_service", {| svc_class := OptService; svc_vtn_id := "vtn1" |});
         ("registration_service",
          {| svc_class := RegistrationService; svc_vtn_id := "vtn1" |})] /\
  app (sample_server "vtn1")
  = Own [{| route_method := "POST"; route_path := "/OpenADR2/Simple/2.0b/EiEvent";
            route_handler := {| svc_class := EventService; svc_vtn_id := "vtn1" |} |};
         {| route_method := "POST"; route_path := "/OpenADR2/Simple/2.0b/EiReport";
            route_handler := {| svc_class := ReportService; svc_vtn_id := "vtn1" |} |};
         {| route_method := "POST"; route_path := "/OpenADR2/Simple/2.0b/OadrPoll";
            route_handler := {| svc_class := PollService; svc_vtn_id := "vtn1" |} |};
         {| route_method := "POST"; route_path := "/OpenADR2/Simple/2.0b/EiOpt";
            route_handler := {| svc_class := OptService; svc_vtn_id := "vtn1" |} |};
         {| route_method := "POST";
            route_path := "/OpenADR2/Simple/2.0b/EiRegisterParty";
            route_handler :=
              {| svc_class := RegistrationService; svc_vtn_id := "vtn1" |} |}].
Proof.
  apply (init_routes sample_names sample_fingerprint
           "vtn1" None None None None fresh_world one_server (sample_server "vtn1")).
  vm_compute. reflexivity.
Defined.




(** C4 fails: with two servers in the process, the poll service of the second
    server resolves [on_poll] to the method of its class; after
    [add_handler("on_poll", 7)] on the first server it resolves it to 7. *)
Lemma handler_binding_leaks_between_servers :
  In ("poll_service", second_poll_service) (new_services "vtn2") /\
  resolve two_servers second_poll_service "on_poll"
  = Some (RMethod second_poll_service PollService "on_poll") /\
  fst (add_handler (sample_server "vtn1") "on_poll" 7 two_servers) = Ok tt /\
  resolve (snd (add_handler (sample_server "vtn1") "on_poll" 7 two_servers))
    second_poll_service "on_poll"
  = Some (RFunc 7).
Proof.
  split; [simpl; tauto|]. vm_compute. repeat split.
Qed.

Lemma add_handler_shared_by_servers_witness :
  services (sample_server "vtn2") = Own (new_services "vtn2") /\
  (exists key svc, In (key, svc) (new_services "vtn2") /\ svc_class svc = PollService) /\
  exists w3,
    add_handler (sample_server "vtn1") "on_poll" 7 two_servers = (Ok tt, w3) /\
    forall key svc,
      In (key, svc) (new_services "vtn2") -> svc_class svc = PollService ->
      resolve w3 svc "on_poll" = Some (RFunc 7).
Proof.
  apply (add_handler_shared_by_servers sample_names sample_fingerprint
           "vtn1" None None None None "vtn2" None None None (Some 9)
           fresh_world one_server two_servers
           (sample_server "vtn1") (sample_server "vtn2") "on_poll" PollService 7).
  - vm_compute. reflexivity.
  - vm_compute. reflexivity.
  - reflexivity.
Defined.

(** ** Further properties of add_handler *)

Lemma dict_get_keys {A} (d : list (string * A)) (k : string) :
  In k (dict_keys d) -> exists v, dict_get d k = Some v.
Proof.
  induction d as [|[k' v] d IH]; simpl; [intros []|].
  destruct (String.eqb_spec k' k) as [->|Hne].
  - intros _. now exists v.
  - intros [H | H]; [contradiction | now apply IH].
Qed.

(** The state [add_handler] leaves behind, in each of its three outcomes. *)
Lemma add_handler_world (self : OpenADRServer) (name : string) (func : Callable)
    (w : World) :
  snd (add_handler self name func w)
  = {| classes :=
         match attrs self !! "_MAP", dict_get _MAP name with
         | None, Some cls => <[(cls, name) := Staticmethod func]> (classes w)
         | _, _ => classes w
         end;
       fs := fs w; opened := opened w;
       stdout := stdout w ++ [[PStr "Called add_handler"; PStr name; PCallable func]] |}.
Proof.
  unfold add_handler, bind, print.
  destruct (attrs self !! "_MAP"); [reflexivity|].
  now destruct (dict_get _MAP name).
Qed.

Lemma add_handler_same_MAP (s1 s2 : OpenADRServer) (name : string)
    (func : Callable) (w : World) :
  attrs s1 !! "_MAP" = attrs s2 !! "_MAP" ->
  add_handler s1 name func w = add_handler s2 name func w.
Proof.
  intros H. unfold add_handler, bind. now rewrite H.
Qed.

Lemma lookup_along_insert_ne (cs : list ServiceClass) (n : string)
    (key : ServiceClass * string) (v : ClassAttr)
    (d : gmap (ServiceClass * string) ClassAttr) :
  (forall c, In c cs -> (c, n) <> key) ->
  lookup_along cs n (<[key := v]> d) = lookup_along cs n d.
Proof.
  induction cs as [|c cs IH]; intros Hne; [reflexivity|].
  simpl.
  rewrite lookup_insert_ne
    by (intros ->; apply (Hne c); [now left | reflexivity]).
  rewrite IH by (intros c' Hc'; apply Hne; now right). reflexivity.
Qed.

Lemma In_mro (c cls : ServiceClass) : In c (mro cls) -> c = cls \/ c = VTNService.
Proof. destruct cls; simpl; intuition congruence. Qed.

(** X1.  Whatever its arguments and its outcome, [add_handler] prints exactly
    one line, the one of line 91, and neither opens nor changes a file. *)
Theorem add_handler_prints_one_line (self : OpenADRServer) (name : string)
    (func : Callable) (w : World) :
  stdout (snd (add_handler self name func w))
  = (stdout w ++ [[PStr "Called add_handler"; PStr name; PCallable func]])%list /\
  opened (snd (add_handler self name func w)) = opened w /\
  fs (snd (add_handler self name func w)) = fs w.
Proof. rewrite add_handler_world. now repeat split. Qed.

(** X2.  [add_handler] succeeds exactly for the names of the catalogue (on a
    server whose instance does not shadow [_MAP]). *)
Theorem add_handler_succeeds_iff (self : OpenADRServer) (name : string)
    (func : Callable) (w : World) :
  attrs self !! "_MAP" = None ->
  fst (add_handler self name func w) = Ok tt <-> In name (dict_keys _MAP).
Proof.
  intros Hself. split.
  - intros Hok.
    destruct (in_dec string_dec name (dict_keys _MAP)) as [Hin|Hout]; [exact Hin|].
    rewrite (add_handler_unknown self name func w Hself Hout) in Hok.
    discriminate Hok.
  - intros [cls Hcls]%dict_get_keys.
    now rewrite (add_handler_known self name cls func w Hself Hcls).
Qed.

Lemma add_handler_succeeds_iff_witness :
  fst (add_handler bare_server "on_update_report" 4 fresh_world) = Ok tt
  <-> In "on_update_report" (dict_keys _MAP).
Proof.
  apply (add_handler_succeeds_iff bare_server "on_update_report" 4 fresh_world).
  reflexivity.
Defined.

(** X3.  [add_handler] changes what a service resolves only for the name
    being bound and only on services of the owning class: every other name,
    and the same name on the services of every other class, resolves as
    before. *)
Theorem add_handler_resolve_frame (self : OpenADRServer) (name : string)
    (func : Callable) (w : World) (svc : Service) (n : string) :
  n <> name \/ dict_get _MAP name <> Some (svc_class svc) ->
  resolve (snd (add_handler self name func w)) svc n = resolve w svc n.
Proof.
  intros Hframe. rewrite add_handler_world. unfold resolve.
  destruct (attrs self !! "_MAP"); [reflexivity|].
  destruct (dict_get _MAP name) as [cls|] eqn:Hcls; [|reflexivity].
  cbn [classes]. rewrite lookup_along_insert_ne; [reflexivity|].
  intros c Hc [= -> ->].
  destruct Hframe as [Hn | Hother]; [now apply Hn|].
  destruct (In_mro _ _ Hc) as [-> | ->].
  - now apply Hother.
  - now apply (_MAP_owner_not_base name VTNService).
Qed.

Lemma add_handler_resolve_frame_witness :
  resolve (snd (add_handler bare_server "on_poll" 7 fresh_world))
    {| svc_class := EventService; svc_vtn_id := "vtn1" |} "on_request_event"
  = resolve fresh_world
      {| svc_class := EventService; svc_vtn_id := "vtn1" |} "on_request_event".
Proof.
  apply (add_handler_resolve_frame bare_server "on_poll" 7 fresh_world).
  left. discriminate.
Defined.

(** X4.  No call of [add_handler] changes an attribute of [VTNService] or of
    [OptService]: the signer and the verifier are out of its reach, and the
    opt service has no extension point that could be bound. *)
Theorem add_handler_keeps_base_and_opt (self : OpenADRServer) (name : string)
    (func : Callable) (w : World) (n : string) :
  classes (snd (add_handler self name func w)) !! (VTNService, n)
  = classes w !! (VTNService, n) /\
  classes (snd (add_handler self name func w)) !! (OptService, n)
  = classes w !! (OptService, n).
Proof.
  rewrite add_handler_world.
  destruct (attrs self !! "_MAP"); [now split|].
  destruct (dict_get _MAP name) as [cls|] eqn:Hcls; [|now split].
  cbn [classes].
  assert (Hin : In (name, cls) _MAP) by now apply dict_get_Some_In.
  assert (Hc : cls <> VTNService /\ cls <> OptService).
  { simpl in Hin.
    repeat (destruct Hin as [[= <- <-] | Hin]; [split; discriminate|]).
    destruct Hin. }
  destruct Hc as [Hb Ho].
  split; (rewrite lookup_insert_ne; [reflexivity | congruence]).
Qed.

(** X5.  Bindings of two different names do not interfere: made in either
    order they leave the same class attributes. *)
Theorem add_handler_commutes (self : OpenADRServer) (n1 n2 : string)
    (f g : Callable) (w : World) :
  n1 <> n2 ->
  classes (snd (add_handler self n2 g (snd (add_handler self n1 f w))))
  = classes (snd (add_handler self n1 f (snd (add_handler self n2 g w)))).
Proof.
  intros Hne. rewrite !add_handler_world.
  destruct (attrs self !! "_MAP"); [reflexivity|].
  destruct (dict_get _MAP n1) as [c1|], (dict_get _MAP n2) as [c2|];
    try reflexivity.
  cbn [classes]. apply insert_insert_ne. congruence.
Qed.

Lemma add_handler_commutes_witness :
  classes (snd (add_handler bare_server "on_poll" 2
                  (snd (add_handler bare_server "on_create_report" 1 fresh_world))))
  = classes (snd (add_handler bare_server "on_create_report" 1
                    (snd (add_handler bare_server "on_poll" 2 fresh_world)))).
Proof.
  apply (add_handler_commutes bare_server "on_create_report" "on_poll" 1 2 fresh_world).
  discriminate.
Defined.

Lemma store_attr_other (self : OpenADRServer) (attr n : string) (g : Callable) :
  attr <> n ->
  attrs (store_attr self attr g) !! n = attrs self !! n.
Proof.
  intros Hne. unfold store_attr.
  destruct (String.eqb attr "app"); [reflexivity|].
  destruct (String.eqb attr "services"); [reflexivity|].
  destruct (String.eqb attr "__setattr__"); [reflexivity|].
  simpl. now rewrite lookup_insert_ne.
Qed.

Lemma object_setattr_Ok (self self' : OpenADRServer) (attr : string) (g : Callable) :
  object_setattr self attr g = Ok self' -> self' = store_attr self attr g.
Proof.
  unfold object_setattr.
  destruct (String.eqb attr "__class__"); [discriminate|].
  destruct (String.eqb attr "__dict__"); [discriminate|].
  destruct (String.eqb attr "__weakref__"); [discriminate|].
  now intros [= <-].
Qed.

(** X6.  An assignment [server._MAP = g] of a function succeeds, and from
    then on the instance attribute hides the catalogue: [add_handler] raises
    [TypeError] for every name, catalogue names included, and binds
    nothing. *)
Theorem add_handler_after_MAP_assigned (self : OpenADRServer) (g : Callable)
    (name : string) (func : Callable) (w : World) :
  object_setattr self "_MAP" g = Ok (store_attr self "_MAP" g) /\
  fst (add_handler (store_attr self "_MAP" g) name func w) = Raise TypeError /\
  classes (snd (add_handler (store_attr self "_MAP" g) name func w)) = classes w.
Proof.
  assert (H : attrs (store_attr self "_MAP" g) !! "_MAP" = Some g)
    by (simpl; apply lookup_insert_eq).
  split; [reflexivity|]. split.
  - unfold add_handler, bind, print. now rewrite H.
  - rewrite add_handler_world. now rewrite H.
Qed.

(** X7.  An assignment [server.attr = g] that succeeds, for any attribute
    other than [_MAP] and [add_handler] (the names of the catalogue
    included), leaves [server.add_handler] what it was and has no effect on
    what [add_handler] does: it neither binds a handler nor disturbs
    binding. *)
Theorem add_handler_after_assignment (self self' : OpenADRServer) (attr : string)
    (g : Callable) (name : string) (func : Callable) (w : World) :
  attr <> "_MAP" ->
  attr <> "add_handler" ->
  object_setattr self attr g = Ok self' ->
  getattr_add_handler self' = getattr_add_handler self /\
  add_handler self' name func w = add_handler self name func w.
Proof.
  intros Hmap Hmethod ->%object_setattr_Ok. split.
  - unfold getattr_add_handler. now rewrite store_attr_other.
  - apply add_handler_same_MAP. now apply store_attr_other.
Qed.

Lemma add_handler_after_assignment_witness :
  getattr_add_handler (store_attr bare_server "on_poll" 5)
  = getattr_add_handler bare_server /\
  add_handler (store_attr bare_server "on_poll" 5) "on_poll" 6 fresh_world
  = add_handler bare_server "on_poll" 6 fresh_world.
Proof.
  apply (add_handler_after_assignment bare_server (store_attr bare_server "on_poll" 5)
           "on_poll" 5 "on_poll" 6 fresh_world).
  - discriminate.
  - discriminate.
  - reflexivity.
Defined.

(** ** Further properties of the constructor *)

Section Constructor_extras.

Variable service_name : ServiceClass -> string.
Variable certificate_fingerprint : list Byte.byte -> Result string.

Local Abbreviation init := (__init__ service_name certificate_fingerprint).
Local Abbreviation signing := (configure_signing certificate_fingerprint).
Local Abbreviation built := (constructed service_name).

Lemma configure_signing_Raise (cert key : option string) (w w' : World)
    (e : Exception) :
  signing cert key w = (Raise e, w') ->
  classes w' = classes w /\ fs w' = fs w.
Proof.
  unfold configure_signing, bind, read_file, print, call, ret.
  destruct cert as [c|], key as [k|]; try discriminate.
  destruct (truthy (Some c) && truthy (Some k)); [|discriminate].
  simpl.
  destruct (fs w !! c) as [cb|]; [simpl|intros H; inversion H; subst; now split].
  destruct (fs w !! k) as [kb|]; [simpl|intros H; inversion H; subst; now split].
  destruct (certificate_fingerprint cb); [discriminate|simpl].
  intros H; inversion H; subst; now split.
Qed.

Lemma init_classes_frame (vtn_id : string) (cert key passphrase : option string)
    (fingerprint_lookup : option Callable) (w w' : World) (srv : OpenADRServer)
    (cls : ServiceClass) (n : string) :
  init vtn_id cert key passphrase fingerprint_lookup w = (Ok srv, w') ->
  cls <> VTNService \/ (n <> "_create_message" /\ n <> "_parse_message") ->
  classes w' !! (cls, n) = classes w !! (cls, n).
Proof.
  intros Hinit Hframe.
  destruct (init_Ok _ _ _ _ _ _ _ _ _ _ Hinit) as (_ & _ & c & k & w1 & _ & ->).
  rewrite !lookup_insert_ne; [reflexivity | |];
    intros [= Ecls En]; destruct Hframe as [Hb | [Hcm Hpm]]; congruence.
Qed.

(** X8.  When [cert] or [key] is [None] or the empty string, construction
    succeeds whatever the files on disk: nothing is opened or printed, and the
    signer gets [cert] and [key] exactly as they were passed. *)
Theorem init_without_signing (vtn_id : string) (cert key passphrase : option string)
    (fingerprint_lookup : option Callable) (w : World) :
  cert = None \/ cert = Some "" \/ key = None \/ key = Some "" ->
  init vtn_id cert key passphrase fingerprint_lookup w
  = (Ok (built vtn_id),
     {| classes :=
          <[(VTNService, "_parse_message") := PartialParse fingerprint_lookup]>
            (<[(VTNService, "_create_message") :=
                 PartialCreate (of_path cert) (of_path key) passphrase]>
               (classes w));
        fs := fs w; opened := opened w; stdout := stdout w |}).
Proof.
  intros H.
  assert (Hf : truthy cert && truthy key = false).
  { destruct H as [-> | [-> | [-> | ->]]]; try reflexivity; apply andb_false_r. }
  rewrite (init_plain service_name certificate_fingerprint _ _ _ _ _ _ Hf).
  unfold after_init. now rewrite !app_nil_r.
Qed.

(** X9.  With both paths given and a certificate path that cannot be opened
    and read, the constructor raises what that [open] raises and leaves the
    process exactly as it was. *)
Theorem init_missing_certificate (vtn_id c k : string) (passphrase : option string)
    (fingerprint_lookup : option Callable) (w : World) :
  c <> "" -> k <> "" ->
  fs w !! c = None ->
  init vtn_id (Some c) (Some k) passphrase fingerprint_lookup w
  = (Raise (OpenError c), w).
Proof.
  intros Hc Hk Hfs. apply init_raise.
  unfold configure_signing.
  rewrite (truthy_Some c Hc), (truthy_Some k Hk). simpl.
  unfold bind, read_file. now rewrite Hfs.
Qed.

(** X10.  With the certificate readable and a key path that cannot be opened
    and read, the constructor raises what the [open] of the key path raises,
    after it has read the certificate: nothing is printed and no codec
    attribute is set. *)
Theorem init_missing_key (vtn_id c k : string) (passphrase : option string)
    (fingerprint_lookup : option Callable) (cb : list Byte.byte) (w : World) :
  c <> "" -> k <> "" ->
  fs w !! c = Some cb ->
  fs w !! k = None ->
  init vtn_id (Some c) (Some k) passphrase fingerprint_lookup w
  = (Raise (OpenError k),
     {| classes := classes w; fs := fs w;
        opened := opened w ++ [c]; stdout := stdout w |}).
Proof.
  intros Hc Hk Hcb Hkb. apply init_raise.
  unfold configure_signing.
  rewrite (truthy_Some c Hc), (truthy_Some k Hk). simpl.
  unfold bind, read_file. rewrite Hcb. simpl. now rewrite Hkb.
Qed.

(** X11.  When [certificate_fingerprint] raises on the certificate's bytes,
    the constructor raises the same exception: both files have been read and
    the first line of the banner is already printed, but no codec attribute
    is set. *)
Theorem init_rejected_certificate (vtn_id c k : string) (passphrase : option string)
    (fingerprint_lookup : option Callable) (cb kb : list Byte.byte)
    (e : Exception) (w : World) :
  c <> "" -> k <> "" ->
  fs w !! c = Some cb ->
  fs w !! k = Some kb ->
  certificate_fingerprint cb = Raise e ->
  init vtn_id (Some c) (Some k) passphrase fingerprint_lookup w
  = (Raise e,
     {| classes := classes w; fs := fs w;
        opened := opened w ++ [c; k];
        stdout := stdout w ++ [[PStr (string_mul "*" 80)]] |}).
Proof.
  intros Hc Hk Hcb Hkb Hfp. apply init_raise.
  unfold configure_signing.
  rewrite (truthy_Some c Hc), (truthy_Some k Hk). simpl.
  unfold bind, read_file, print, call. rewrite Hcb. simpl.
  rewrite Hkb. simpl. rewrite Hfp. simpl.
  now rewrite <- app_assoc.
Qed.

(** X12.  A constructor call that raises has changed no class attribute and
    no file: the signer and verifier of the process, and every handler
    binding, are those from before the call. *)
Theorem init_failure_keeps_classes (vtn_id : string) (cert key passphrase : option string)
    (fingerprint_lookup : option Callable) (w w' : World) (e : Exception) :
  init vtn_id cert key passphrase fingerprint_lookup w = (Raise e, w') ->
  classes w' = classes w /\ fs w' = fs w /\
  forall svc n, resolve w' svc n = resolve w svc n.
Proof.
  intros Hinit.
  destruct (signing cert key w) as [[[c k]|e'] w1] eqn:Hs.
  - rewrite (init_unfold _ _ _ _ _ _ _ _ _ _ _ Hs) in Hinit. discriminate.
  - rewrite (init_raise _ _ _ _ _ _ _ _ _ _ Hs) in Hinit.
    injection Hinit as _ <-.
    destruct (configure_signing_Raise _ _ _ _ _ Hs) as [Hc Hf].
    split; [exact Hc|]. split; [exact Hf|].
    intros svc n. unfold resolve. now rewrite Hc.
Qed.

(** X13.  A constructor call that returns has changed the two codec
    attributes of [VTNService] and nothing else: every service resolves every
    other name as before. *)
Theorem init_keeps_other_attributes (vtn_id : string) (cert key passphrase : option string)
    (fingerprint_lookup : option Callable) (w w' : World) (srv : OpenADRServer)
    (svc : Service) (n : string) :
  init vtn_id cert key passphrase fingerprint_lookup w = (Ok srv, w') ->
  n <> "_create_message" ->
  n <> "_parse_message" ->
  fs w' = fs w /\ resolve w' svc n = resolve w svc n.
Proof.
  intros Hinit Hc Hp.
  destruct (init_Ok _ _ _ _ _ _ _ _ _ _ Hinit) as (_ & Hfs & c & k & w1 & _ & Hcl).
  split; [exact Hfs|]. unfold resolve. rewrite Hcl.
  rewrite !lookup_along_insert_ne; [reflexivity | |]; intros c' _ [= ? ?]; congruence.
Qed.

(** X14.  A handler bound before a server is constructed is in force for the
    services of the new server: the constructor does not reset the bindings
    of the catalogue. *)
Theorem init_inherits_handlers (self : OpenADRServer) (name : string)
    (cls : ServiceClass) (func : Callable)
    (vtn_id : string) (cert key passphrase : option string)
    (fingerprint_lookup : option Callable) (w w' : World) (srv : OpenADRServer) :
  attrs self !! "_MAP" = None ->
  dict_get _MAP name = Some cls ->
  init vtn_id cert key passphrase fingerprint_lookup
    (snd (add_handler self name func w)) = (Ok srv, w') ->
  services srv = Own (new_services vtn_id) /\
  (exists key svc, In (key, svc) (new_services vtn_id) /\ svc_class svc = cls) /\
  forall svc, svc_class svc = cls -> resolve w' svc name = Some (RFunc func).
Proof.
  intros Hself Hname Hinit.
  destruct (init_Ok _ _ _ _ _ _ _ _ _ _ Hinit) as (-> & _).
  split; [reflexivity|].
  split; [now apply (owner_has_service name)|].
  intros svc Hsvc.
  apply (resolve_own w' svc name (Staticmethod func)).
  rewrite (init_classes_frame _ _ _ _ _ _ _ _ _ name Hinit)
    by (left; rewrite Hsvc; now apply (_MAP_owner_not_base name)).
  rewrite (add_handler_known self name cls func w Hself Hname). simpl.
  rewrite Hsvc. apply lookup_insert_eq.
Qed.

End Constructor_extras.

Lemma init_without_signing_witness :
  sample_init "vtn1" (Some "") (Some "key.pem") None None signing_world
  = (Ok (sample_server "vtn1"),
     {| classes :=
          <[(VTNService, "_parse_message") := PartialParse None]>
            (<[(VTNService, "_create_message") :=
                 PartialCreate (of_path (Some "")) (of_path (Some "key.pem")) None]>
               (classes signing_world));
        fs := fs signing_world; opened := opened signing_world;
        stdout := stdout signing_world |}).
Proof.
  apply (init_without_signing sample_names sample_fingerprint
           "vtn1" (Some "") (Some "key.pem") None None signing_world).
  right. left. reflexivity.
Defined.

Lemma init_missing_certificate_witness :
  sample_init "vtn1" (Some "cert.pem") (Some "key.pem") None None fresh_world
  = (Raise (OpenError "cert.pem"), fresh_world).
Proof.
  apply (init_missing_certificate sample_names sample_fingerprint
           "vtn1" "cert.pem" "key.pem" None None fresh_world).
  - discriminate.
  - discriminate.
  - reflexivity.
Defined.

Lemma init_missing_key_witness :
  sample_init "vtn1" (Some "cert.pem") (Some "key.pem") None None cert_only_world
  = (Raise (OpenError "key.pem"),
     {| classes := classes cert_only_world; fs := fs cert_only_world;
        opened := opened cert_only_world ++ ["cert.pem"];
        stdout := stdout cert_only_world |}).
Proof.
  apply (init_missing_key sample_names sample_fingerprint
           "vtn1" "cert.pem" "key.pem" None None [Byte.x2d; Byte.x2d] cert_only_world).
  - discriminate.
  - discriminate.
  - reflexivity.
  - reflexivity.
Defined.

Lemma init_rejected_certificate_witness :
  sample_init "vtn1" (Some "cert.pem") (Some "key.pem") None None bad_cert_world
  = (Raise ValueError,
     {| classes := classes bad_cert_world; fs := fs bad_cert_world;
        opened := opened bad_cert_world ++ ["cert.pem"; "key.pem"];
        stdout := stdout bad_cert_world ++ [[PStr (string_mul "*" 80)]] |}).
Proof.
  apply (init_rejected_certificate sample_names sample_fingerprint
           "vtn1" "cert.pem" "key.pem" None None [Byte.x4b] [Byte.x4b]
           ValueError bad_cert_world).
  - discriminate.
  - discriminate.
  - reflexivity.
  - reflexivity.
  - reflexivity.
Defined.

Definition key_missing : World :=
  snd (sample_init "vtn1" (Some "cert.pem") (Some "key.pem") None None cert_only_world).

Lemma init_failure_keeps_classes_witness :
  classes key_missing = classes cert_only_world /\
  fs key_missing = fs cert_only_world /\
  forall svc n, resolve key_missing svc n = resolve cert_only_world svc n.
Proof.
  apply (init_failure_keeps_classes sample_names sample_fingerprint
           "vtn1" (Some "cert.pem") (Some "key.pem") None None
           cert_only_world key_missing (OpenError "key.pem")).
  vm_compute. reflexivity.
Defined.

Lemma init_keeps_other_attributes_witness :
  fs one_server = fs fresh_world /\
  resolve one_server second_poll_service "on_poll"
  = resolve fresh_world second_poll_service "on_poll".
Proof.
  apply (init_keeps_other_attributes sample_names sample_fingerprint
           "vtn1" None None None None fresh_world one_server (sample_server "vtn1")).
  - vm_compute. reflexivity.
  - discriminate.
  - discriminate.
Defined.

Lemma init_inherits_handlers_witness :
  services (sample_server "vtn2") = Own (new_services "vtn2") /\
  (exists key svc, In (key, svc) (new_services "vtn2") /\ svc_class svc = PollService) /\
  forall svc, svc_class svc = PollService ->
    resolve (snd (sample_init "vtn2" None None None None
                    (snd (add_handler bare_server "on_poll" 7 fresh_world))))
      svc "on_poll"
    = Some (RFunc 7).
Proof.
  apply (init_inherits_handlers sample_names sample_fingerprint
           bare_server "on_poll" PollService 7
           "vtn2" None None None None fresh_world
           (snd (sample_init "vtn2" None None None None
                   (snd (add_handler bare_server "on_poll" 7 fresh_world))))
           (sample_server "vtn2")).
  - reflexivity.
  - reflexivity.
  - vm_compute. reflexivity.
Defined.
